(** * Notepad automation bot: a shallow embedding and its properties

    The repository holds two generations of the same bot:

    - [main.py], a stand-alone script that matches icon templates against a
      screen capture with OpenCV ([find_icon_with_multiple_templates]) and
      drives Notepad with pyautogui;
    - the package [src/icon_detector.py] and [src/notepad.py], which
      delegates matching to a BotCity [DesktopBot], keeps a one-slot
      coordinate cache and waits for dialogs by polling.

    Each is embedded in a module of its own ([Main], [IconDetector],
    [Notepad]).  Calls into OpenCV, BotCity and pygetwindow are inputs of
    the model: an oracle answers them, and a theorem holds for every oracle
    unless it names the oracles it is about. *)

From Stdlib Require Import ZArith QArith List String Ascii Bool Lia.
From Stdlib Require Import Numbers.DecimalString.
Import ListNotations.

(** ** Python exceptions and outcomes *)

Inductive exn : Type :=
| IndexError   (* tuple index out of range *)
| TypeError    (* subscripting None *)
| CvError.     (* cv2.error raised by an OpenCV assertion *)

Inductive outcome (A : Type) : Type :=
| Raised (e : exn)
| Returned (a : A).

Arguments Raised {A} e.
Arguments Returned {A} a.

(** Confidence values are Python floats; the code only compares them, so they
    are modelled as rationals with the usual order. *)
Definition Qlt_bool (x y : Q) : bool := negb (Qle_bool y x).

(** ** Python strings

    Window titles are compared after [str.lower()].  Titles are modelled as
    ASCII strings; the words they are tested against are ASCII. *)

Definition lower_ascii (c : ascii) : ascii :=
  let n := nat_of_ascii c in
  if (65 <=? n)%nat && (n <=? 90)%nat then ascii_of_nat (n + 32) else c.

Fixpoint lower (s : string) : string :=
  match s with
  | EmptyString => EmptyString
  | String c rest => String (lower_ascii c) (lower rest)
  end.

(** [needle in hay] *)
Fixpoint contains (needle hay : string) : bool :=
  match hay with
  | EmptyString => prefix needle EmptyString
  | String _ rest => prefix needle hay || contains needle rest
  end.

(** [s.endswith(suffix)]: some tail of [s] is [suffix]. *)
Fixpoint endswith (s suffix : string) : bool :=
  (s =? suffix)%string ||
  match s with
  | EmptyString => false
  | String _ rest => endswith rest suffix
  end.

(** [str(n)] for an integer. *)
Definition str_of_int (n : Z) : string := NilZero.string_of_int (Z.to_int n).

Definition LF : string := String (ascii_of_nat 10) EmptyString.

(** ** Windows, as pygetwindow reports them *)

Record Window : Type := mkWindow {
  title : string;
  visible : bool;
  left : Z;
  top : Z;
  width : Z;
  height : Z
}.

(** A post of the JSON feed. *)
Record Post : Type := mkPost {
  post_id : Z;
  post_title : string;
  post_body : string
}.

(** * main.py *)

Module Main.

Open Scope Z_scope.

(** ** Constants *)

Definition MATCH_THRESHOLD : Q := 8 # 10.

(** ** Templates and the screen capture *)

(** The [.shape] of a numpy array as [cv2.imread(..., IMREAD_UNCHANGED)]
    returns it: two entries for a grayscale file, three for a colour one. *)
Inductive ndarray_shape : Type :=
| Shape2 (rows cols : Z)
| Shape3 (rows cols channels : Z).

(** An entry [(img_path.name, template)] of the list [load_templates] builds. *)
Record Template : Type := mkTemplate {
  t_name : string;
  t_shape : ndarray_shape
}.

(** The grayscale capture of the monitor.  [match_max] stands for
    [cv2.minMaxLoc(cv2.matchTemplate(screen_gray, template_gray,
    TM_CCOEFF_NORMED, mask))]: the maximum of the correlation surface of a
    template on this capture, and where it is. *)
Record Capture : Type := mkCapture {
  screen_rows : Z;
  screen_cols : Z;
  match_max : Template -> Q * (Z * Z)
}.

(** The four locals the loop updates. *)
Record Best : Type := mkBest {
  best_match_score : Q;
  best_match_loc : option (Z * Z);
  best_match_dims : Z * Z;
  best_template_name : string
}.

Definition best_init : Best :=
  {| best_match_score := 0;
     best_match_loc := None;
     best_match_dims := (0, 0);
     best_template_name := EmptyString |}.

(** Lines 60-67: [template.shape[2]], the alpha split and [cv2.cvtColor];
    the result is [template_gray.shape].  A two-dimensional array has no
    [shape[2]]; BGR2GRAY asserts three or four channels. *)
Definition template_gray_shape (t : Template) : outcome (Z * Z) :=
  match t_shape t with
  | Shape2 _ _ => Raised IndexError
  | Shape3 rows cols channels =>
      if channels =? 4 then Returned (rows, cols)
      else if channels =? 3 then Returned (rows, cols)
      else Raised CvError
  end.

(** Line 70. *)
Definition too_big (screen : Capture) (shape : Z * Z) : bool :=
  (fst shape >? screen_rows screen) || (snd shape >? screen_cols screen).

(** One iteration of the [for name, template in templates] loop. *)
Definition visit (screen : Capture) (best : Best) (t : Template) : outcome Best :=
  match template_gray_shape t with
  | Raised e => Raised e
  | Returned shape =>
      if too_big screen shape then Returned best
      else
        let w := snd shape in
        let h := fst shape in
        let (max_val, max_loc) := match_max screen t in
        if Qlt_bool (best_match_score best) max_val then
          Returned {| best_match_score := max_val;
                      best_match_loc := Some max_loc;
                      best_match_dims := (w, h);
                      best_template_name := t_name t |}
        else Returned best
  end.

Fixpoint scan (screen : Capture) (best : Best) (templates : list Template)
  : outcome Best :=
  match templates with
  | [] => Returned best
  | t :: rest =>
      match visit screen best t with
      | Raised e => Raised e
      | Returned best' => scan screen best' rest
      end
  end.

(** Lines 87-95. *)
Definition accept (best : Best) : outcome (option (Z * Z)) :=
  if Qle_bool MATCH_THRESHOLD (best_match_score best) then
    match best_match_loc best with
    | None => Raised TypeError
    | Some (loc_x, loc_y) =>
        let (w, h) := best_match_dims best in
        Returned (Some (loc_x + w / 2, loc_y + h / 2))
    end
  else Returned None.

Definition find_icon_with_multiple_templates
    (screen : Capture) (templates : list Template) : outcome (option (Z * Z)) :=
  match scan screen best_init templates with
  | Raised e => Raised e
  | Returned best => accept best
  end.

(** ** Vocabulary for the statements *)











(** ** Window filter (lines 114-129)

    [all_windows] is what [gw.getWindowsWithTitle("Notepad")] returned. *)

Definition is_notepad_title (t : string) : bool :=
  let title := lower t in
  ((title =? "notepad")%string || endswith title " - notepad"
     || contains "notepad" title)
  && (negb (contains "cursor" title) && negb (contains "code" title)
        && negb (contains "editor" title)).

Definition get_notepad_windows (all_windows : list Window) : list Window :=
  filter (fun window => is_notepad_title (title window)) all_windows.


(** ** Content and file name of a post (lines 321 and 333) *)

Definition content (post : Post) : string :=
  ("Title: " ++ post_title post ++ LF ++ LF ++ post_body post)%string.

Definition filename (post : Post) : string :=
  ("post_" ++ str_of_int (post_id post) ++ ".txt")%string.

(** ** The driver (lines 356-373)

    [all_templates] is what [load_templates] returned and [posts] what
    [fetch_posts] returned ([None] when the request failed).  The driver
    is stated for any per-post procedure acting on a state [W]; a
    procedure that raises ends the run. *)

Section Driver.

Variable W : Type.
Variable process_single_post : Post -> list Template -> W -> outcome W.

Fixpoint for_each_post (posts : list Post) (all_templates : list Template) (w : W)
  : outcome W :=
  match posts with
  | [] => Returned w
  | post :: rest =>
      match process_single_post post all_templates w with
      | Raised e => Raised e
      | Returned w' => for_each_post rest all_templates w'
      end
  end.

Definition main (all_templates : list Template) (posts : option (list Post)) (w : W)
  : outcome W :=
  match all_templates with
  | [] => Returned w
  | _ :: _ =>
      match posts with
      | None => Returned w
      | Some [] => Returned w
      | Some posts => for_each_post (firstn 10 posts) all_templates w
      end
  end.

End Driver.

(** A per-post procedure that only records the post it was given. *)
Definition record_post (post : Post) (_ : list Template) (seen : list Post)
  : outcome (list Post) :=
  Returned (seen ++ [post]).

(** ** Sample data

    A full-HD capture on which [a.png] matches with confidence 0.85 at
    (10, 20) and [b.png] with 0.92 at (100, 100); [huge.png] is larger than
    the capture and [gray.png] is a grayscale file. *)

Definition template_a : Template := mkTemplate "a.png" (Shape3 20 20 3).
Definition template_b : Template := mkTemplate "b.png" (Shape3 20 20 4).
Definition template_huge : Template := mkTemplate "huge.png" (Shape3 2000 3000 3).
Definition template_gray : Template := mkTemplate "gray.png" (Shape2 20 20).

Definition sample_screen : Capture :=
  {| screen_rows := 1080;
     screen_cols := 1920;
     match_max := fun t =>
       if (t_name t =? "a.png")%string then (85 # 100, (10, 20))
       else if (t_name t =? "b.png")%string then (92 # 100, (100, 100))
       else if (t_name t =? "huge.png")%string then (99 # 100, (0, 0))
       else (1 # 10, (5, 5)) |}.

End Main.

(** * The desktop the package acts on

    [icon_detector.py] and [notepad.py] act on the desktop through
    pyautogui, pyperclip, pygetwindow and a BotCity [DesktopBot], and read
    the clock.  The model threads a [World]: the clock (milliseconds), the
    module global [icon_cache] and the trace of everything done so far.
    Queries to the bot and to the window manager are answered by an [Env],
    which sees the clock and the whole trace, so that an answer may depend
    on every earlier action.  [time.sleep] advances the clock by the time
    asked for; nothing else takes time. *)

Module Desktop.

Open Scope Z_scope.

Definition Coord : Type := (Z * Z)%type.

Inductive Event : Type :=
(* actions *)
| DoubleClick (x y : Z)                  (* pyautogui.doubleClick(x, y) *)
| Click (x y : Z)                        (* pyautogui.click(x, y) *)
| Hotkey (keys : list string)            (* pyautogui.hotkey(...) *)
| Press (key : string)                   (* pyautogui.press(key) *)
| Copy (text : string)                   (* pyperclip.copy(text) *)
| Activate (w : Window)                  (* window.activate() *)
| CloseWindow (w : Window)               (* window.close() *)
| Printed (msg : string)                 (* print(msg) *)
(* queries, with the answer received *)
| BotFind (label : string) (matching : Q) (found : bool)
| BotCoords (label : string) (matching : Q) (coords : option (Q * Q))
| WindowsWithTitle (t : string) (windows : list Window)
(* calls of the package's own functions, recorded to state their order *)
| CacheSet (coords : Coord)                            (* set_cache *)
| CacheInvalidated                                     (* invalidate_cache *)
| FindIcon (use_cache : bool) (result : option Coord)  (* find_icon returned *)
| Verified (coords : option Coord) (launched : bool).  (* _verify_notepad_launched returned *)

Definition Trace : Type := list (Z * Event).

Record World : Type := mkWorld {
  now : Z;
  icon_cache : option Coord;
  trace : Trace
}.

(** The collaborators outside the repository. *)
Record Env : Type := mkEnv {
  (* bot.find(label=..., matching=..., waiting_time=FIND_WAIT_TIME) *)
  bot_find : Z -> Trace -> string -> Q -> bool;
  (* bot.get_element_coords(label, matching=...) *)
  bot_get_element_coords : Z -> Trace -> string -> Q -> option (Q * Q);
  (* gw.getWindowsWithTitle(title) *)
  getWindowsWithTitle : Z -> Trace -> string -> list Window;
  (* str(project_path / filename) *)
  joinpath : string -> string -> string
}.

(** The constants imported from [config.py]; their values are parameters.
    [SPACING] is a positive number of milliseconds. *)
Record Config : Type := mkConfig {
  MATCHING_THRESHOLD : Q;
  FIND_WAIT_TIME : Z;
  SPACING : positive
}.

(** ** A state monad over the world; [None] is a loop that ran out of fuel *)

Definition M (A : Type) : Type := World -> option (A * World).

Definition ret {A : Type} (a : A) : M A := fun w => Some (a, w).

Definition bind {A B : Type} (c : M A) (k : A -> M B) : M B :=
  fun w => match c w with
           | None => None
           | Some (a, w') => k a w'
           end.

Definition out_of_fuel {A : Type} : M A := fun _ => None.

Declare Scope desktop_scope.
Delimit Scope desktop_scope with desktop.

Notation "x <- c1 ;; c2" := (bind c1 (fun x => c2))
  (at level 61, c1 at next level, right associativity) : desktop_scope.
Notation "c1 ;; c2" := (bind c1 (fun _ => c2))
  (at level 61, right associativity) : desktop_scope.

Open Scope desktop_scope.

Definition emit (e : Event) : M unit :=
  fun w => Some (tt, {| now := now w;
                        icon_cache := icon_cache w;
                        trace := trace w ++ [(now w, e)] |}).

(** [time.time()] *)
Definition time : M Z := fun w => Some (now w, w).

(** [time.sleep(delay)] *)
Definition sleep (delay : Z) : M unit :=
  fun w => Some (tt, {| now := now w + delay;
                        icon_cache := icon_cache w;
                        trace := trace w |}).

Definition read_cache : M (option Coord) := fun w => Some (icon_cache w, w).

Definition write_cache (c : option Coord) : M unit :=
  fun w => Some (tt, {| now := now w; icon_cache := c; trace := trace w |}).

(** A query: the environment answers from the clock and the trace, and the
    answer is recorded. *)
Definition ask {A : Type} (answer : Z -> Trace -> A) (event : A -> Event) : M A :=
  fun w => let a := answer (now w) (trace w) in
           Some (a, {| now := now w;
                       icon_cache := icon_cache w;
                       trace := trace w ++ [(now w, event a)] |}).

(** [int(x)] on a number: truncation towards zero. *)
Definition py_int (x : Q) : Z := Z.quot (Qnum x) (Z.pos (Qden x)).

Definition events_of (tr : Trace) : list Event := map snd tr.

(** ** Specifying a computation

    [runs c w a w' evs]: started in [w], [c] returns [a], leaves the world
    [w'] and has added [evs] to the trace.  [ok c w Q]: [c] returns from [w],
    and what it returns, the world it leaves and the events it added satisfy
    [Q]. *)

Definition runs {A : Type} (c : M A) (w : World) (a : A) (w' : World) (evs : Trace)
  : Prop :=
  c w = Some (a, w') /\ trace w' = trace w ++ evs.

Definition ok {A : Type} (c : M A) (w : World) (Q : A -> World -> Trace -> Prop)
  : Prop :=
  exists a w' evs, runs c w a w' evs /\ Q a w' evs.

(** Keys pressed, texts put on the clipboard and messages printed. *)
Definition is_input (e : Event) : bool :=
  match e with
  | Hotkey _ | Press _ | Copy _ | Printed _ => true
  | _ => false
  end.

Definition script (evs : Trace) : list Event := filter is_input (events_of evs).

(** The calls whose order the launch procedure is about. *)
Definition is_call (e : Event) : bool :=
  match e with
  | FindIcon _ _ | Verified _ _ | CacheInvalidated => true
  | _ => false
  end.

Definition calls (evs : Trace) : list Event := filter is_call (events_of evs).


Definition is_bot_query (e : Event) : bool :=
  match e with
  | BotFind _ _ _ | BotCoords _ _ _ => true
  | _ => false
  end.

Definition initial_world : World :=
  {| now := 0; icon_cache := None; trace := [] |}.

End Desktop.

(** * src/icon_detector.py *)

Module IconDetector.

Import Desktop.
Open Scope Z_scope.
Open Scope desktop_scope.

(** ** The cache (lines 8-33) *)

Definition set_cache (coords : Coord) : M unit :=
  write_cache (Some coords) ;; emit (CacheSet coords).

Definition invalidate_cache : M unit :=
  write_cache None ;; emit CacheInvalidated.

(** Reading the global, as [find_icon] and any other reader does. *)
Definition get_cache : M (option Coord) := read_cache.

Section FindIcon.

Variable cfg : Config.
Variable env : Env.

Definition bot_find_label (label : string) (matching : Q) : M bool :=
  ask (fun t h => bot_find env t h label matching) (BotFind label matching).

Definition bot_coords_label (label : string) (matching : Q) : M (option (Q * Q)) :=
  ask (fun t h => bot_get_element_coords env t h label matching)
      (BotCoords label matching).

Definition doubleClick_if (click : bool) (coords : Coord) : M unit :=
  if click then emit (DoubleClick (fst coords) (snd coords)) else ret tt.

(** Lines 59-69: the loop over the labels at one threshold. *)
Fixpoint for_labels (threshold : Q) (template_labels : list string) (click : bool)
  : M (option Coord) :=
  match template_labels with
  | [] => ret None
  | label :: rest =>
      found <- bot_find_label label threshold ;;
      if found then
        coords <- bot_coords_label label threshold ;;
        match coords with
        | Some (cx, cy) =>
            let x := py_int cx in
            let y := py_int cy in
            set_cache (x, y) ;;
            doubleClick_if click (x, y) ;;
            ret (Some (x, y))
        | None => for_labels threshold rest click
        end
      else for_labels threshold rest click
  end.

(** Line 58: the loop over the thresholds. *)
Fixpoint for_thresholds (thresholds : list Q) (template_labels : list string)
    (click : bool) : M (option Coord) :=
  match thresholds with
  | [] => ret None
  | threshold :: rest =>
      r <- for_labels threshold template_labels click ;;
      match r with
      | Some coords => ret (Some coords)
      | None => for_thresholds rest template_labels click
      end
  end.

Definition thresholds : list Q :=
  [MATCHING_THRESHOLD cfg; (MATCHING_THRESHOLD cfg - (1 # 10))%Q].

Definition find_icon_body (template_labels : list string) (use_cache click : bool)
  : M (option Coord) :=
  cache <- read_cache ;;
  match (if use_cache then cache else None) with
  | Some coords =>
      doubleClick_if click coords ;;
      ret (Some coords)
  | None => for_thresholds thresholds template_labels click
  end.

Definition find_icon (template_labels : list string) (use_cache click : bool)
  : M (option Coord) :=
  r <- find_icon_body template_labels use_cache click ;;
  emit (FindIcon use_cache r) ;;
  ret r.

End FindIcon.

(** A bot that finds a label exactly when the label's match confidence on the
    screen reaches the [matching] asked for, whatever happened before. *)
Definition scoring_env (score : string -> Q) (where_ : string -> Q * Q) : Env :=
  {| bot_find := fun _ _ label matching => Qle_bool matching (score label);
     bot_get_element_coords := fun _ _ label matching =>
       if Qle_bool matching (score label) then Some (where_ label) else None;
     getWindowsWithTitle := fun _ _ _ => [];
     joinpath := fun dir name => (dir ++ "/" ++ name)%string |}.

(** ** Vocabulary for the statements *)







(** A configuration with the threshold 0.8, and a screen on which the only
    icon matches with confidence 0.75 at (300, 400). *)
Definition sample_config : Config :=
  {| MATCHING_THRESHOLD := 8 # 10; FIND_WAIT_TIME := 1000; SPACING := 500 |}.

Definition faint_icon_env : Env :=
  scoring_env (fun _ => 75 # 100) (fun _ => (300 # 1, 400 # 1)).

End IconDetector.

(** * src/notepad.py *)

Module Notepad.

Import Desktop.
Import IconDetector.
Open Scope Z_scope.
Open Scope desktop_scope.

(** Line 70: the test on a lowered title. *)
Definition is_notepad_title (t : string) : bool :=
  let title := lower t in
  (title =? "notepad")%string || endswith title " - notepad".

(** The filter of [get_notepad_windows] on the list the window manager
    returned. *)
Definition notepad_windows_of (all_windows : list Window) : list Window :=
  filter (fun window => is_notepad_title (title window)) all_windows.

Section Package.

Variable cfg : Config.
Variable env : Env.

Definition windows_with_title (t : string) : M (list Window) :=
  ask (fun clock h => getWindowsWithTitle env clock h t) (WindowsWithTitle t).

(** ** Helper functions (lines 18-58) *)

Definition _wait (delay : Z) : M unit := sleep delay.

(** [_wait()] with its default argument. *)
Definition _wait_spacing : M unit := _wait (Z.pos (SPACING cfg)).

Definition _activate_and_click_center (window : Window) : M unit :=
  emit (Activate window) ;;
  _wait_spacing ;;
  let center_x := left window + width window / 2 in
  let center_y := top window + height window / 2 in
  emit (Click center_x center_y) ;;
  _wait_spacing.

(** The [while time.time() < end_time] loop of [_wait_for_dialog]. *)
Fixpoint wait_for_dialog_loop (fuel : nat) (t : string) (end_time : Z)
    (wait_for_appear : bool) : M bool :=
  match fuel with
  | O => out_of_fuel
  | S fuel' =>
      clock <- time ;;
      if clock <? end_time then
        dialogs <- windows_with_title t ;;
        match wait_for_appear, dialogs with
        | true, first :: _ =>
            emit (Activate first) ;;
            _wait_spacing ;;
            ret true
        | false, [] => ret true
        | _, _ =>
            _wait_spacing ;;
            wait_for_dialog_loop fuel' t end_time wait_for_appear
        end
      else ret (if wait_for_appear then false else true)
  end.

(** Every turn of the loop sleeps at least a millisecond, so [timeout + 1]
    turns are enough. *)
Definition _wait_for_dialog (t : string) (timeout : Z) (wait_for_appear : bool)
  : M bool :=
  clock <- time ;;
  wait_for_dialog_loop (S (Z.to_nat timeout)) t (clock + timeout) wait_for_appear.

(** ** Window management (lines 64-93) *)

Definition get_notepad_windows : M (list Window) :=
  all_windows <- windows_with_title "Notepad" ;;
  ret (notepad_windows_of all_windows).

Fixpoint close_visible (windows : list Window) : M unit :=
  match windows with
  | [] => ret tt
  | window :: rest =>
      (if visible window then emit (CloseWindow window) else ret tt) ;;
      close_visible rest
  end.

Definition close_notepad : M bool :=
  active_windows <- get_notepad_windows ;;
  match active_windows with
  | [] => ret true
  | _ :: _ =>
      close_visible active_windows ;;
      _wait 500 ;;
      remaining <- get_notepad_windows ;;
      ret (match remaining with
           | [] => true
           | _ :: _ => negb (existsb visible remaining)
           end)
  end.

(** ** Icon detection and launching (lines 100-132) *)

Fixpoint verify_loop (fuel : nat) (timeout : Z) (coords : option Coord) : M bool :=
  match fuel with
  | O => out_of_fuel
  | S fuel' =>
      clock <- time ;;
      if clock <? timeout then
        active_windows <- get_notepad_windows ;;
        if existsb visible active_windows then
          match coords with
          | Some c => set_cache c
          | None => ret tt
          end ;;
          _wait_spacing ;;
          ret true
        else
          _wait_spacing ;;
          verify_loop fuel' timeout coords
      else ret false
  end.

Definition _verify_notepad_launched_body (coords : option Coord) : M bool :=
  clock <- time ;;
  verify_loop (S (Z.to_nat 5000)) (clock + 5000) coords.

Definition _verify_notepad_launched (coords : option Coord) : M bool :=
  launched <- _verify_notepad_launched_body coords ;;
  emit (Verified coords launched) ;;
  ret launched.

(** Lines 110-118: [for attempt in range(3)] and the final [return False]. *)
Fixpoint fresh_attempts (attempts : nat) (template_labels : list string) : M bool :=
  match attempts with
  | O => ret false
  | S attempts' =>
      coords <- find_icon cfg env template_labels false false ;;
      match coords with
      | Some c =>
          launched <- _verify_notepad_launched (Some c) ;;
          if launched then ret true
          else _wait_spacing ;; fresh_attempts attempts' template_labels
      | None => _wait_spacing ;; fresh_attempts attempts' template_labels
      end
  end.

Definition launch_notepad (template_labels : list string) : M bool :=
  coords <- find_icon cfg env template_labels true false ;;
  match coords with
  | Some c =>
      launched <- _verify_notepad_launched (Some c) ;;
      if launched then ret true
      else invalidate_cache ;; fresh_attempts 3 template_labels
  | None => fresh_attempts 3 template_labels
  end.

(** ** Content writing (lines 139-216) *)

Definition _prepare_notepad_window : M unit :=
  active_windows <- get_notepad_windows ;;
  match active_windows with
  | first :: _ => _activate_and_click_center first
  | [] => ret tt
  end.

Definition _paste_content (content : string) : M unit :=
  emit (Copy content) ;;
  _wait_spacing ;;
  emit (Hotkey ["ctrl"; "a"]%string) ;;
  _wait_spacing ;;
  emit (Press "delete") ;;
  _wait_spacing ;;
  emit (Hotkey ["ctrl"; "v"]%string) ;;
  _wait_spacing.

Definition _save_file (filepath : string) : M bool :=
  emit (Hotkey ["ctrl"; "s"]%string) ;;
  _wait_spacing ;;
  appeared <- _wait_for_dialog "Save As" 3000 true ;;
  if negb appeared then ret false
  else
    emit (Hotkey ["ctrl"; "a"]%string) ;;
    _wait_spacing ;;
    emit (Copy filepath) ;;
    _wait_spacing ;;
    emit (Hotkey ["ctrl"; "v"]%string) ;;
    _wait_spacing ;;
    emit (Press "enter") ;;
    _wait_spacing ;;
    confirm_window <- windows_with_title "Confirm Save As" ;;
    match confirm_window with
    | first :: _ =>
        emit (Activate first) ;;
        _wait_spacing ;;
        emit (Press "y") ;;
        _wait_spacing
    | [] => ret tt
    end ;;
    _wait_for_dialog "Save As" 2000 false ;;
    ret true.

Definition content (post : Post) : string :=
  ("Title: " ++ post_title post ++ LF ++ LF ++ post_body post)%string.

Definition filename (post : Post) : string :=
  ("post_" ++ str_of_int (post_id post) ++ ".txt")%string.

Definition warning (post : Post) : string :=
  ("Warning: Save As dialog not found for post " ++ str_of_int (post_id post))%string.

Definition write_post_to_notepad (post : Post) (project_path : string) : M unit :=
  _wait_for_dialog "Save As" 2000 false ;;
  _prepare_notepad_window ;;
  emit (Hotkey ["ctrl"; "n"]%string) ;;
  _wait_spacing ;;
  _prepare_notepad_window ;;
  _paste_content (content post) ;;
  let filepath := joinpath env project_path (filename post) in
  saved <- _save_file filepath ;;
  if negb saved then emit (Printed (warning post))
  else
    _prepare_notepad_window ;;
    emit (Hotkey ["ctrl"; "w"]%string) ;;
    _wait_spacing ;;
    close_notepad ;;
    ret tt.

End Package.

(** ** Vocabulary for the statements *)





(** The keys the write flow sends. *)
Definition ctrl (key : string) : Event := Hotkey ["ctrl"%string; key].

Definition script_to_save (text : string) : list Event :=
  [ctrl "n"; Copy text; ctrl "a"; Press "delete"; ctrl "v"; ctrl "s"].

Definition script_of_path (filepath : string) : list Event :=
  [ctrl "a"; Copy filepath; ctrl "v"; Press "enter"].


(** The post of the end-to-end scenario. *)
Definition sample_post : Post :=
  {| post_id := 42; post_title := "T"; post_body := "B" |}.


(** ** A desktop to run the package on

    A stand-in for Windows and Notepad, for the examples: the icon matches
    with confidence 0.95 at (110, 110); one Notepad window is open; the
    Save As dialog is open from Ctrl+S until Enter; and when the file exists,
    "Confirm Save As" is open from that Enter until "y". *)

Definition is_hotkey (key : string) (e : Event) : bool :=
  match e with
  | Hotkey [modifier; k] => ((modifier =? "ctrl") && (k =? key))%string
  | _ => false
  end.

Definition is_press (key : string) (e : Event) : bool :=
  match e with
  | Press k => (k =? key)%string
  | _ => false
  end.

(** Whether a dialog opened by [opens] and closed by [closes] is open after
    the events. *)
Fixpoint dialog_open (opens closes : Event -> bool) (open : bool) (evs : list Event)
  : bool :=
  match evs with
  | [] => open
  | e :: rest =>
      dialog_open opens closes
        (if opens e then true else if closes e then false else open) rest
  end.

Definition notepad_window : Window :=
  mkWindow "Untitled - Notepad" true 100 100 800 600.

Definition save_as_dialog : Window := mkWindow "Save As" true 200 200 400 300.

Definition confirm_dialog : Window :=
  mkWindow "Confirm Save As" true 250 250 300 100.

Definition simulated_desktop (file_exists : bool) : Env :=
  {| bot_find := fun _ _ _ matching => Qle_bool matching (95 # 100);
     bot_get_element_coords := fun _ _ _ matching =>
       if Qle_bool matching (95 # 100) then Some (110 # 1, 110 # 1) else None;
     getWindowsWithTitle := fun _ history t =>
       if (t =? "Notepad")%string then [notepad_window]
       else if (t =? "Save As")%string then
         if dialog_open (is_hotkey "s") (is_press "enter") false (events_of history)
         then [save_as_dialog] else []
       else if (t =? "Confirm Save As")%string then
         if file_exists
            && dialog_open (is_press "enter") (is_press "y") false (events_of history)
         then [confirm_dialog] else []
       else [];
     joinpath := fun dir name => (dir ++ "/" ++ name)%string |}.

Definition run_script {A : Type} (c : M A) : option (list Event) :=
  match c initial_world with
  | Some (_, w') => Some (script (trace w'))
  | None => None
  end.

End Notepad.

(** * Properties *)



(** ** Python string tests *)

Module StringFacts.

Open Scope string_scope.





Lemma append_nil_r (a : string) : a ++ "" = a.
Proof. induction a as [| x a IH]; cbn; [reflexivity | now rewrite IH]. Qed.

End StringFacts.

Module MainFacts.
Import Main.
Open Scope Z_scope.

Section Matcher.

Variable screen : Capture.












End Matcher.

(** The example of the specification: A scores 0.85 and B scores 0.92 with
    the threshold 0.8; the result is the centre of B. *)
Example find_icon_prefers_b :
  find_icon_with_multiple_templates sample_screen
    [template_a; template_huge; template_b] = Returned (Some (110, 110)).
Proof. reflexivity. Qed.

(** A grayscale template file makes the call raise, whatever its size. *)
Example find_icon_gray_raises :
  find_icon_with_multiple_templates sample_screen [template_a; template_gray]
  = Raised IndexError.
Proof. reflexivity. Qed.




(** ** The driver *)

Lemma for_each_post_record (posts : list Post) (all_templates : list Template)
    (seen : list Post) :
  for_each_post (list Post) record_post posts all_templates seen =
  Returned (seen ++ posts).
Proof.
  revert seen. induction posts as [| post rest IH]; intros seen; cbn.
  - now rewrite app_nil_r.
  - rewrite IH, <- app_assoc. reflexivity.
Qed.

(** C10.  The driver hands at most the first ten posts of the fetched list
    to the per-post procedure: whatever that procedure is, a run on the full
    list is the run on its first ten posts, and the posts a run visits are
    the first ten (none when no template was loaded), so no position from
    the tenth on is ever visited. *)
Theorem main_processes_first_ten_posts
    (all_templates : list Template) (posts : list Post) :
  (forall (W : Type) (process : Post -> list Template -> W -> outcome W) (w : W),
     main W process all_templates (Some posts) w =
     main W process all_templates (Some (firstn 10 posts)) w) /\
  (exists visited,
     main (list Post) record_post all_templates (Some posts) [] = Returned visited /\
     visited = match all_templates with
               | [] => []
               | _ :: _ => firstn 10 posts
               end /\
     (List.length visited <= 10)%nat /\
     forall i, (10 <= i)%nat -> nth_error visited i = None).
Proof.
  split.
  - intros W process w. unfold main.
    destruct all_templates as [| t ts]; [reflexivity |].
    destruct posts as [| post rest]; [reflexivity |].
    rewrite firstn_firstn. reflexivity.
  - exists (match all_templates with [] => [] | _ :: _ => firstn 10 posts end).
    split; [| split; [reflexivity | split]].
    + unfold main. destruct all_templates as [| t ts]; [reflexivity |].
      destruct posts as [| post rest]; [reflexivity |].
      rewrite for_each_post_record. reflexivity.
    + destruct all_templates; [cbn; lia | apply firstn_le_length].
    + intros i Hi. apply nth_error_None.
      destruct all_templates; [cbn; lia |].
      pose proof (firstn_le_length 10 posts). lia.
Qed.

End MainFacts.

(** * The program logic of the desktop monad *)

Module DesktopFacts.
Import Desktop.
Open Scope Z_scope.
Open Scope desktop_scope.

Lemma ok_ret {A : Type} (a : A) (w : World) (Q : A -> World -> Trace -> Prop) :
  Q a w [] -> ok (ret a) w Q.
Proof.
  intros HQ. exists a, w, []. split; [| exact HQ].
  split; [reflexivity | now rewrite app_nil_r].
Qed.

Lemma ok_bind {A B : Type} (c : M A) (k : A -> M B) (w : World)
    (Q : B -> World -> Trace -> Prop) :
  ok c w (fun a w1 e1 => ok (k a) w1 (fun b w2 e2 => Q b w2 (e1 ++ e2))) ->
  ok (bind c k) w Q.
Proof.
  intros (a & w1 & e1 & [Hc Ht1] & (b & w2 & e2 & [Hk Ht2] & HQ)).
  exists b, w2, (e1 ++ e2). split; [| exact HQ]. split.
  - unfold bind. rewrite Hc. exact Hk.
  - rewrite Ht2, Ht1, app_assoc. reflexivity.
Qed.


Lemma ok_emit (e : Event) (w : World) (Q : unit -> World -> Trace -> Prop) :
  Q tt {| now := now w; icon_cache := icon_cache w;
          trace := trace w ++ [(now w, e)] |} [(now w, e)] ->
  ok (emit e) w Q.
Proof.
  intros HQ. eexists _, _, _. split; [| exact HQ]. split; reflexivity.
Qed.

Lemma ok_sleep (delay : Z) (w : World) (Q : unit -> World -> Trace -> Prop) :
  Q tt {| now := now w + delay; icon_cache := icon_cache w; trace := trace w |} [] ->
  ok (sleep delay) w Q.
Proof.
  intros HQ. eexists _, _, _. split; [| exact HQ].
  split; [reflexivity | cbn; now rewrite app_nil_r].
Qed.

Lemma ok_time (w : World) (Q : Z -> World -> Trace -> Prop) :
  Q (now w) w [] -> ok time w Q.
Proof.
  intros HQ. eexists _, _, _. split; [| exact HQ].
  split; [reflexivity | now rewrite app_nil_r].
Qed.

Lemma ok_read_cache (w : World) (Q : option Coord -> World -> Trace -> Prop) :
  Q (icon_cache w) w [] -> ok read_cache w Q.
Proof.
  intros HQ. eexists _, _, _. split; [| exact HQ].
  split; [reflexivity | now rewrite app_nil_r].
Qed.

Lemma ok_write_cache (c : option Coord) (w : World)
    (Q : unit -> World -> Trace -> Prop) :
  Q tt {| now := now w; icon_cache := c; trace := trace w |} [] ->
  ok (write_cache c) w Q.
Proof.
  intros HQ. eexists _, _, _. split; [| exact HQ].
  split; [reflexivity | cbn; now rewrite app_nil_r].
Qed.

Lemma ok_ask {A : Type} (answer : Z -> Trace -> A) (event : A -> Event) (w : World)
    (Q : A -> World -> Trace -> Prop) :
  Q (answer (now w) (trace w))
    {| now := now w; icon_cache := icon_cache w;
       trace := trace w ++ [(now w, event (answer (now w) (trace w)))] |}
    [(now w, event (answer (now w) (trace w)))] ->
  ok (ask answer event) w Q.
Proof.
  intros HQ. eexists _, _, _. split; [| exact HQ]. split; reflexivity.
Qed.

(** One step of symbolic execution through straight-line code. *)
Ltac step :=
  first
    [ apply ok_bind
    | apply ok_ret
    | apply ok_emit
    | apply ok_sleep
    | apply ok_time
    | apply ok_read_cache
    | apply ok_write_cache
    | apply ok_ask ];
  cbn [now icon_cache trace].

Ltac steps := repeat step; cbn [now icon_cache trace].




End DesktopFacts.

(** * Facts about src/icon_detector.py *)

Module IconDetectorFacts.
Import Desktop DesktopFacts IconDetector.
Open Scope Z_scope.
Open Scope desktop_scope.

(** C7.  The cache is one slot.  After [set_cache c] and
    [invalidate_cache] a read finds nothing; a [set_cache c'] after the
    invalidation is read back; a second [set_cache] replaces the first.
    [find_icon] reads the slot the same way: with [use_cache] it returns the
    coordinate just set without asking the bot, and after an invalidation it
    searches again (and finds nothing when there is no label to look for). *)
Theorem cache_is_a_single_slot (c c' : Coord) (w : World) :
  option_map fst ((set_cache c ;; invalidate_cache ;; get_cache) w) = Some None /\
  option_map fst ((set_cache c ;; invalidate_cache ;; set_cache c' ;; get_cache) w)
    = Some (Some c') /\
  option_map fst ((invalidate_cache ;; set_cache c' ;; get_cache) w)
    = Some (Some c') /\
  option_map fst ((set_cache c ;; set_cache c' ;; get_cache) w) = Some (Some c') /\
  (forall cfg env template_labels,
     ok (set_cache c ;; find_icon cfg env template_labels true false) w
        (fun r _ evs =>
           r = Some c /\
           filter is_bot_query (events_of evs) = [])) /\
  (forall cfg env,
     option_map fst
       ((set_cache c ;; invalidate_cache ;; find_icon cfg env [] true false) w)
     = Some None).
Proof.
  repeat split; try reflexivity.
  intros cfg env template_labels.
  unfold set_cache, find_icon, find_icon_body. steps.
  unfold doubleClick_if. steps. split; reflexivity.
Qed.

(** ** [find_icon] against any bot *)






(** ** [find_icon] against a bot that scores labels *)

Section Scoring.

Variable score : string -> Q.
Variable where_ : string -> Q * Q.


End Scoring.




(** The bot-based [find_icon] has no confidence to compare: with A at 0.85
    before B at 0.92 and the threshold 0.8 it returns A, the first label the
    bot finds. *)
Example find_icon_returns_first_found :
  option_map fst
    (find_icon sample_config
       (scoring_env
          (fun label => if (label =? "a")%string then 85 # 100 else 92 # 100)
          (fun label => if (label =? "a")%string then (20 # 1, 30 # 1)
                        else (110 # 1, 110 # 1)))
       ["a"; "b"]%string false false initial_world)
  = Some (Some (20, 30)).
Proof. vm_compute. reflexivity. Qed.

End IconDetectorFacts.

(** * Facts about the window filters *)

Module WindowFacts.
Import StringFacts.
Open Scope string_scope.





End WindowFacts.

(** * Facts about src/notepad.py *)

Module NotepadFacts.
Import Desktop DesktopFacts IconDetector IconDetectorFacts Notepad.
Open Scope Z_scope.
Open Scope desktop_scope.

Section Package.

Variable cfg : Config.
Variable env : Env.

(** ** Launching *)






(** ** Waiting for a dialog *)



(** ** Writing a post *)










(** ** When the Save As dialog never appears *)

Section NoSaveDialog.

Hypothesis never_appears :
  forall clock history, getWindowsWithTitle env clock history "Save As" = [].



End NoSaveDialog.


End Package.


(** ** Runs on the simulated desktop *)

(** The end-to-end scenario of the specification: post 42, "T", "B". *)
Example write_post_42 :
  run_script (write_post_to_notepad sample_config (simulated_desktop false)
                sample_post "tjm-project")
  = Some (script_to_save ("Title: T" ++ LF ++ LF ++ "B")%string
            ++ script_of_path "tjm-project/post_42.txt" ++ [ctrl "w"]).
Proof. vm_compute. reflexivity. Qed.

(** Saving to a path that exists answers the confirmation with "y". *)
Example write_post_42_again :
  run_script (write_post_to_notepad sample_config (simulated_desktop true)
                sample_post "tjm-project")
  = Some (script_to_save ("Title: T" ++ LF ++ LF ++ "B")%string
            ++ script_of_path "tjm-project/post_42.txt"
            ++ [Press "y"; ctrl "w"]).
Proof. vm_compute. reflexivity. Qed.

(** Without a Save As dialog the write stops at the warning: six polls, half
    a second apart, then the message. *)
Example write_post_42_without_dialog :
  option_map (fun r => (events_of (skipn 8 (trace (snd r))), now (snd r)))
    (write_post_to_notepad sample_config faint_icon_env sample_post "tjm-project"
       initial_world)
  = Some (ctrl "s" :: repeat (WindowsWithTitle "Save As" []) 6
            ++ [Printed "Warning: Save As dialog not found for post 42"],
          6000).
Proof. vm_compute. reflexivity. Qed.

(** A launch with an empty cache searches, sees Notepad and fills the cache;
    the next launch answers from the cache without asking the bot. *)
Example launch_twice :
  match launch_notepad sample_config (simulated_desktop false) ["notepad"%string]
          initial_world with
  | Some (launched, w1) =>
      launched = true /\ icon_cache w1 = Some (110, 110) /\
      calls (trace w1) =
        [FindIcon true (Some (110, 110)); Verified (Some (110, 110)) true] /\
      match launch_notepad sample_config (simulated_desktop false)
              ["notepad"%string] w1 with
      | Some (launched', w2) =>
          launched' = true /\
          List.length (filter is_bot_query (events_of (trace w2))) =
          List.length (filter is_bot_query (events_of (trace w1)))
      | None => False
      end
  | None => False
  end.
Proof. vm_compute. repeat split. Qed.

(** When Notepad never shows up, a launch gives up after the first try and
    three fresh attempts and returns [false]. *)
Example launch_gives_up :
  option_map (fun r => (fst r, calls (trace (snd r))))
    (launch_notepad sample_config
       (scoring_env (fun _ => 95 # 100) (fun _ => (110 # 1, 110 # 1)))
       ["notepad"%string]
       {| now := 0; icon_cache := Some (7, 7); trace := [] |})
  = Some (false,
          [FindIcon true (Some (7, 7)); Verified (Some (7, 7)) false;
           CacheInvalidated;
           FindIcon false (Some (110, 110)); Verified (Some (110, 110)) false;
           FindIcon false (Some (110, 110)); Verified (Some (110, 110)) false;
           FindIcon false (Some (110, 110)); Verified (Some (110, 110)) false]).
Proof. vm_compute. reflexivity. Qed.

End NotepadFacts.
